(** * Lab-automation consultant: requirements records, catalogue lookup and
      report rendering

    Shallow embedding of [inventor_agent.py] (the triage flow:
    [LabRequirements], [SOLUTION_KNOWLEDGE_BASE], [get_lab_requirements],
    [find_automation_solution]) and of [inventor_agent2.py] (the
    specification flow: [WeighingStationURS],
    [generate_weighing_station_urs]).

    Conventions of the embedding.
    - A Python [str] is a [string]; the model is exact for ASCII text.
      Text of the source that is not ASCII (three pictographs, a micro sign)
      is held as its UTF-8 bytes and is only ever concatenated.  [str.lower]
      and [str.strip] act on the ASCII letters and on the ASCII white space
      of Python ([\t\n\v\f\r], [\x1c]-[\x1f] and the blank).
    - A Python [int] is a [Z].
    - A raised exception is the [Raise] case of [result].
    - Arguments are taken at the types the tool signatures declare; a keyword
      argument that is not passed is [None] of an [option].
    - [print] calls write to the terminal only and are left out. *)

From Stdlib Require Import String Ascii List ZArith NArith Lia Bool DecimalString.
Import ListNotations.
Local Open Scope string_scope.

(** ** Python string operations *)

Module PyStr.

(** The line feed, written [\n] in the source. *)
Definition LF : string := String (ascii_of_nat 10) "".

(** [str.isspace] on one ASCII character. *)
Definition isspace (c : ascii) : bool :=
  let n := N_of_ascii c in
  ((9 <=? n) && (n <=? 13) || (28 <=? n) && (n <=? 32))%N.

Definition isupper (c : ascii) : bool :=
  let n := N_of_ascii c in ((65 <=? n) && (n <=? 90))%N.

Definition lower_char (c : ascii) : ascii :=
  if isupper c then ascii_of_N (N_of_ascii c + 32) else c.

Fixpoint map (f : ascii -> ascii) (s : string) : string :=
  match s with
  | "" => ""
  | String c s' => String (f c) (map f s')
  end.

Fixpoint forallb (f : ascii -> bool) (s : string) : bool :=
  match s with
  | "" => true
  | String c s' => f c && forallb f s'
  end.

(** [s.lower()] *)
Definition lower (s : string) : string := map lower_char s.

(** [s.lstrip()] *)
Fixpoint lstrip (s : string) : string :=
  match s with
  | "" => ""
  | String c s' => if isspace c then lstrip s' else s
  end.

(** [s.rstrip()]: a character is dropped when it is white space and
    nothing is kept after it. *)
Fixpoint rstrip (s : string) : string :=
  match s with
  | "" => ""
  | String c s' =>
      match rstrip s' with
      | "" => if isspace c then "" else String c ""
      | r => String c r
      end
  end.

(** [s.strip()] *)
Definition strip (s : string) : string := rstrip (lstrip s).

(** [s.startswith(p)] *)
Fixpoint startswith (p s : string) : bool :=
  match p, s with
  | "", _ => true
  | String _ _, "" => false
  | String a p', String b s' => Ascii.eqb a b && startswith p' s'
  end.

(** [s.replace(old, new)] for a non-empty [old]: scan from the left; at a
    match emit [new] and skip the rest of the match ([skip] counts the
    characters of the match still to pass over). *)
Fixpoint replace_from (old new s : string) (skip : nat) : string :=
  match s with
  | "" => ""
  | String c s' =>
      match skip with
      | S k => replace_from old new s' k
      | O =>
          if startswith old s
          then new ++ replace_from old new s' (String.length old - 1)
          else String c (replace_from old new s' 0)
      end
  end.

(** With an empty [old], Python puts [new] before every character and at
    the end. *)
Fixpoint intersperse (new s : string) : string :=
  match s with
  | "" => new
  | String c s' => new ++ String c (intersperse new s')
  end.

Definition replace (s old new : string) : string :=
  match old with
  | "" => intersperse new s
  | _ => replace_from old new s 0
  end.

(** [str(n)] for an [int]. *)
Definition str_of_int (n : Z) : string :=
  NilZero.string_of_int (Z.to_int n).

(** Number of positions of [s] at which [p] occurs. *)
Fixpoint occurrences (p s : string) : nat :=
  (if startswith p s then 1 else 0) +
  match s with
  | "" => 0
  | String _ s' => occurrences p s'
  end.

(** [p in s] *)
Definition contains (p s : string) : bool :=
  negb (Nat.eqb (occurrences p s) 0).

(** [s.find(p)], with [None] for Python's [-1]. *)
Fixpoint find (p s : string) : option nat :=
  if startswith p s then Some 0
  else match s with
       | "" => None
       | String _ s' => option_map S (find p s')
       end.

End PyStr.
Import PyStr.


(** ** Exceptions *)

Inductive exn : Type :=
| ValidationError (missing : list string)
    (** pydantic's error, with the names of the required fields not given *)
| KeyError (key : string).

Inductive result (A : Type) : Type :=
| Return (a : A)
| Raise (e : exn).
Arguments Return {A} a.
Arguments Raise {A} e.

Definition bind {A B : Type} (m : result A) (k : A -> result B) : result B :=
  match m with
  | Return a => k a
  | Raise e => Raise e
  end.

Notation "x <- m ;; k" := (bind m (fun x => k))
  (at level 61, m at next level, right associativity).

(** ** Python dictionaries with string keys, in insertion order *)

Module Dict.

Definition t (V : Type) : Type := list (string * V).

Fixpoint get {V : Type} (d : t V) (k : string) : option V :=
  match d with
  | [] => None
  | (k', v) :: d' => if String.eqb k k' then Some v else get d' k
  end.

(** [k in d] *)
Definition mem {V : Type} (k : string) (d : t V) : bool :=
  match get d k with Some _ => true | None => false end.

(** [d[k]] *)
Definition getitem {V : Type} (d : t V) (k : string) : result V :=
  match get d k with
  | Some v => Return v
  | None => Raise (KeyError k)
  end.

End Dict.

(** ** inventor_agent.py *)

(** One entry of the knowledge base.  Every entry of the literal has the same
    five keys, so [sol['k']] is the projection [k]. *)
Record Solution : Type := {
  solution_name : string;
  description : string;
  example_vendors : list string;
  avg_budget : string;
  key_requirements : list string
}.

Definition SOLUTION_KNOWLEDGE_BASE : Dict.t (list Solution) :=
  [ ("weighing",
     [ {| solution_name := "Automated Weighing Station (URS APL01)";
          description := "An automated or semi-automated station to replace manual weighing[cite: 515]. Handles weighing compounds from 0.2mg - 100g [cite: 527] and supports one-to-many, one-to-one, and many-to-one workflows[cite: 541].";
          example_vendors := ["(Vendor research needed)"];
          avg_budget := "$70,000 - $200,000";
          key_requirements :=
            [ "Handle solids (powders, flakes, etc) and liquids [cite: 529]";
              "Read/produce barcodes [cite: 533]";
              "Throughput: 84+ compounds/day [cite: 535]";
              "Import/export worklists (csv, xml) [cite: 539]" ] |};
       {| solution_name := "Manual Computer-Assisted Weighing Station (URS APL02)";
          description := "A simpler station that assists a human user[cite: 548, 571]. It displays target weights, automatically records the weight, and steps through a compound list[cite: 585].";
          example_vendors := ["(Vendor research needed)"];
          avg_budget := "$10,000 - $40,000";
          key_requirements :=
            [ "Assist user by displaying target weight [cite: 585]";
              "Read barcodes from source/destination containers [cite: 589]";
              "Import/export worklists (csv) [cite: 593, 595]" ] |} ]);
    ("sample_handling_logistics",
     [ {| solution_name := "Logistics Robot 1: Tube Handling & Weighing (URS APL07)";
          description := "A logistics robot to fix the bottleneck of manually handling 23,000+ tubes/year[cite: 353, 372]. It automates labeling, barcoding, weighing, and pick & place operations[cite: 894, 920].";
          example_vendors := ["(Vendor research needed)"];
          avg_budget := "$150,000 - $300,000";
          key_requirements :=
            [ "Pick & place tubes between different rack types (e.g., rack80 to Genevac racks) [cite: 924]";
              "Weigh and barcode >25,000 tubes/year [cite: 943]";
              "Weigh rack of 24 tubes in < 20 min [cite: 943]";
              "Controlled via API / worklists [cite: 928]" ] |};
       {| solution_name := "Logistics Robot 2: Liquid Handling (URS APL08)";
          description := "A logistics robot focused on liquid handling steps for synthesis and purification[cite: 962].";
          example_vendors := ["(Vendor research needed)"];
          avg_budget := "$100,000 - $250,000";
          key_requirements :=
            [ "Aspirate/dispense volumes from 5µl to 30ml [cite: 988]";
              "Pool fractions from rack-to-rack [cite: 990]";
              "Redissolve dried fractions in racks [cite: 990]";
              "Controlled via API / worklists [cite: 994]" ] |} ]) ].

(** The pydantic model [LabRequirements]: three required fields and an
    optional one, none with a constraint beyond its type. *)
Record LabRequirements : Type := {
  problem_domain : string;
  samples_per_day : Z;
  current_process : string;
  budget : option string
}.

(** The keyword arguments of a call [LabRequirements(...)]: [None] is a
    keyword that is not passed. *)
Record LabRequirements_kwargs : Type := {
  kw_problem_domain : option string;
  kw_samples_per_day : option Z;
  kw_current_process : option string;
  kw_budget : option (option string)
}.

(** Names of the required fields ([Field(...)]) that are not given, in field
    order. *)
Definition missing_field {A : Type} (name : string) (v : option A)
  : list string :=
  match v with Some _ => [] | None => [name] end.

Definition LabRequirements_missing (kw : LabRequirements_kwargs)
  : list string :=
  missing_field "problem_domain" (kw_problem_domain kw)
  ++ missing_field "samples_per_day" (kw_samples_per_day kw)
  ++ missing_field "current_process" (kw_current_process kw).

(** The call [LabRequirements(...)]: [budget] defaults to [None]. *)
Definition LabRequirements_init (kw : LabRequirements_kwargs)
  : result LabRequirements :=
  match kw_problem_domain kw, kw_samples_per_day kw, kw_current_process kw with
  | Some d, Some n, Some p =>
      Return {| problem_domain := d;
                samples_per_day := n;
                current_process := p;
                budget := match kw_budget kw with
                          | Some b => b
                          | None => None
                          end |}
  | _, _, _ => Raise (ValidationError (LabRequirements_missing kw))
  end.

(** The domain key of line 129:
    [requirements.problem_domain.lower().strip().replace(" ", "_")]. *)
Definition normalize (raw : string) : string :=
  replace (strip (lower raw)) " " "_".

(** The body of the inner [for req in sol['key_requirements']] loop. *)
Definition add_requirement (summary req : string) : string :=
  summary ++ "* " ++ req ++ LF.

(** The body of the [for sol in possible_solutions] loop. *)
Definition add_solution (summary : string) (sol : Solution) : string :=
  let summary :=
    summary ++ "### ✅ Recommended Solution: " ++ solution_name sol ++ LF in
  let summary := summary ++ "**What it does:** " ++ description sol ++ LF in
  let summary := summary ++ "**Estimated Budget:** " ++ avg_budget sol ++ LF in
  let summary := summary ++ "**Key Requirements (from URS):**" ++ LF in
  let summary := fold_left add_requirement (key_requirements sol) summary in
  summary ++ "---" ++ LF.

Definition find_automation_solution (requirements : LabRequirements)
  : result string :=
  let domain := normalize (problem_domain requirements) in
  let throughput := samples_per_day requirements in
  if negb (Dict.mem domain SOLUTION_KNOWLEDGE_BASE) then
    Return ("I have understood your need for '" ++ domain
            ++ "', but I do not have a pre-built solution for that in my database.")
  else
    possible_solutions <- Dict.getitem SOLUTION_KNOWLEDGE_BASE domain ;;
    let summary := "--- 🤖 AI Consultant: Solution Proposal --- " ++ LF ++ LF in
    let summary :=
      summary ++ "Based on your bottleneck with **" ++ domain
      ++ "** (processing **" ++ str_of_int throughput
      ++ " samples/day** using a '" ++ current_process requirements
      ++ "' process), I have identified the following automation solutions from my URS knowledge base:"
      ++ LF ++ LF in
    let summary := fold_left add_solution possible_solutions summary in
    let summary :=
      summary ++ LF
      ++ "This proposal is a starting point. We can now dive deeper into specific products." in
    Return summary.

(** The tool [get_lab_requirements]: builds the record, then searches. *)
Definition get_lab_requirements
    (problem_domain : string) (samples_per_day : Z) (current_process : string)
    (budget : option string) : result string :=
  reqs <- LabRequirements_init
            {| kw_problem_domain := Some problem_domain;
               kw_samples_per_day := Some samples_per_day;
               kw_current_process := Some current_process;
               kw_budget := Some budget |} ;;
  find_automation_solution reqs.

(** ** inventor_agent2.py *)

Record WeighingStationURS : Type := {
  project_scope : string;
  throughput : string;
  weighing_specs : string;
  chemical_types : list string;
  labware_containers : list string;
  identification_labeling : string;
  data_handling : string;
  workflow_use_cases : list string
}.

Record WeighingStationURS_kwargs : Type := {
  kw_project_scope : option string;
  kw_throughput : option string;
  kw_weighing_specs : option string;
  kw_chemical_types : option (list string);
  kw_labware_containers : option (list string);
  kw_identification_labeling : option string;
  kw_data_handling : option string;
  kw_workflow_use_cases : option (list string)
}.

Definition WeighingStationURS_missing (kw : WeighingStationURS_kwargs)
  : list string :=
  missing_field "project_scope" (kw_project_scope kw)
  ++ missing_field "throughput" (kw_throughput kw)
  ++ missing_field "weighing_specs" (kw_weighing_specs kw)
  ++ missing_field "chemical_types" (kw_chemical_types kw)
  ++ missing_field "labware_containers" (kw_labware_containers kw)
  ++ missing_field "identification_labeling" (kw_identification_labeling kw)
  ++ missing_field "data_handling" (kw_data_handling kw)
  ++ missing_field "workflow_use_cases" (kw_workflow_use_cases kw).

(** The call [WeighingStationURS(...)]: all eight fields are required. *)
Definition WeighingStationURS_init (kw : WeighingStationURS_kwargs)
  : result WeighingStationURS :=
  match kw_project_scope kw, kw_throughput kw, kw_weighing_specs kw,
        kw_chemical_types kw, kw_labware_containers kw,
        kw_identification_labeling kw, kw_data_handling kw,
        kw_workflow_use_cases kw with
  | Some a, Some b, Some c, Some d, Some e, Some f, Some g, Some h =>
      Return {| project_scope := a; throughput := b; weighing_specs := c;
                chemical_types := d; labware_containers := e;
                identification_labeling := f; data_handling := g;
                workflow_use_cases := h |}
  | _, _, _, _, _, _, _, _ =>
      Raise (ValidationError (WeighingStationURS_missing kw))
  end.

(** The body of the three [for item in ...] loops. *)
Definition add_item (report item : string) : string :=
  report ++ "* " ++ item ++ LF.

(** Lines 73-110: the report built from the record. *)
Definition build_report (urs_data : WeighingStationURS) : string :=
  let report :=
    "--- 📋 AI Consultant: Generated URS Document (APL01-Draft) --- "
    ++ LF ++ LF in
  let report :=
    report ++ "Thank you. Based on our interview, I have drafted the following User Requirements Specification (URS) for the new **Automated Weighing Station**."
    ++ LF ++ LF in
  let report := report ++ "### 1. Project Scope" ++ LF in
  let report := report ++ "* " ++ project_scope urs_data ++ LF ++ LF in
  let report := report ++ "### 2. Throughput" ++ LF in
  let report :=
    report ++ "* " ++ throughput urs_data ++ " [cite: 562]" ++ LF ++ LF in
  let report := report ++ "### 3. Weighing Specifications" ++ LF in
  let report :=
    report ++ "* **Range & Precision:** " ++ weighing_specs urs_data
    ++ " [cite: 554]" ++ LF ++ LF in
  let report := report ++ "### 4. Categories of Chemicals" ++ LF in
  let report := report ++ "The system must handle: [cite: 556]" ++ LF in
  let report := fold_left add_item (chemical_types urs_data) report in
  let report := report ++ LF in
  let report := report ++ "### 5. Labware" ++ LF in
  let report := report ++ "The system must handle: [cite: 558]" ++ LF in
  let report := fold_left add_item (labware_containers urs_data) report in
  let report := report ++ LF in
  let report := report ++ "### 6. Identification & Labeling" ++ LF in
  let report :=
    report ++ "* " ++ identification_labeling urs_data ++ " [cite: 560]"
    ++ LF ++ LF in
  let report := report ++ "### 7. Input/Output Data" ++ LF in
  let report :=
    report ++ "* " ++ data_handling urs_data ++ " [cite: 566]" ++ LF ++ LF in
  let report := report ++ "### 8. Workflows / Use Cases" ++ LF in
  let report := report ++ "The system must support: [cite: 568]" ++ LF in
  let report := fold_left add_item (workflow_use_cases urs_data) report in
  let report := report ++ LF ++ "---" ++ LF in
  let report :=
    report ++ "This draft can now be used for the 'Solution Finding' phase." in
  report.


(** ** Vocabulary of the statements *)

(** A blank becomes an underscore, any other character stays. *)
Definition underscore (c : ascii) : ascii :=
  if Ascii.eqb c " " then "_"%char else c.

Definition notupper (c : ascii) : bool := negb (isupper c).
Definition notblank (c : ascii) : bool := negb (Ascii.eqb c " ").

(** The string begins, or ends, with white space. *)
Definition starts_space (s : string) : bool :=
  match s with
  | "" => false
  | String c _ => isspace c
  end.

Fixpoint ends_space (s : string) : bool :=
  match s with
  | "" => false
  | String c "" => isspace c
  | String _ s' => ends_space s'
  end.

(** [t] is [s] without its leading and trailing white space: [s] is [t]
    between two runs of white space, and [t] has white space at neither
    end. *)
Definition stripped_of (s t : string) : Prop :=
  exists l r : string,
    s = l ++ t ++ r
    /\ forallb isspace l = true
    /\ forallb isspace r = true
    /\ starts_space t = false
    /\ ends_space t = false.

(** The character occurs in the string. *)
Fixpoint mem_char (c : ascii) (s : string) : bool :=
  match s with
  | "" => false
  | String d s' => Ascii.eqb c d || mem_char c s'
  end.


(** The texts [f x], for the elements [x] of [l] in their order, one after
    the other. *)
Fixpoint join_map {A : Type} (f : A -> string) (l : list A) : string :=
  match l with
  | [] => ""
  | x :: l' => f x ++ join_map f l'
  end.

(** A bullet line. *)
Definition bullet (item : string) : string := "* " ++ item ++ LF.

(** The block of one solution: its name, what it does, its budget, and its
    key requirements, one bullet line each. *)
Definition solution_block (sol : Solution) : string :=
  "### ✅ Recommended Solution: " ++ solution_name sol ++ LF
  ++ "**What it does:** " ++ description sol ++ LF
  ++ "**Estimated Budget:** " ++ avg_budget sol ++ LF
  ++ "**Key Requirements (from URS):**" ++ LF
  ++ join_map bullet (key_requirements sol)
  ++ "---" ++ LF.

(** The head of a report of matched solutions: the title, and the sentence
    that restates the domain key, the throughput and the current process. *)
Definition report_header (key : string) (n : Z) (process : string) : string :=
  "--- 🤖 AI Consultant: Solution Proposal --- " ++ LF ++ LF
  ++ "Based on your bottleneck with **" ++ key
  ++ "** (processing **" ++ str_of_int n
  ++ " samples/day** using a '" ++ process
  ++ "' process), I have identified the following automation solutions from my URS knowledge base:"
  ++ LF ++ LF.

Definition report_closing : string :=
  LF ++ "This proposal is a starting point. We can now dive deeper into specific products.".

(** The station document, as sections: what comes before the first
    section, the eight sections (a heading and a body each) and what comes
    after the last. *)
Definition urs_preamble : string :=
  "--- 📋 AI Consultant: Generated URS Document (APL01-Draft) --- "
  ++ LF ++ LF
  ++ "Thank you. Based on our interview, I have drafted the following User Requirements Specification (URS) for the new **Automated Weighing Station**."
  ++ LF ++ LF.

Definition urs_closing : string :=
  "---" ++ LF
  ++ "This draft can now be used for the 'Solution Finding' phase.".


(** The body of a section of one text: a single bullet line. *)
Definition scalar_body (before field after : string) : string :=
  bullet (before ++ field ++ after) ++ LF.

(** The body of a section of a sequence: a line of introduction, then one
    bullet line for each element, in the order of the sequence. *)
Definition sequence_body (intro : string) (items : list string) : string :=
  intro ++ LF ++ join_map bullet items ++ LF.

Definition urs_sections (u : WeighingStationURS) : list (string * string) :=
  [ ("### 1. Project Scope", scalar_body "" (project_scope u) "");
    ("### 2. Throughput", scalar_body "" (throughput u) " [cite: 562]");
    ("### 3. Weighing Specifications",
     scalar_body "**Range & Precision:** " (weighing_specs u) " [cite: 554]");
    ("### 4. Categories of Chemicals",
     sequence_body "The system must handle: [cite: 556]" (chemical_types u));
    ("### 5. Labware",
     sequence_body "The system must handle: [cite: 558]"
                   (labware_containers u));
    ("### 6. Identification & Labeling",
     scalar_body "" (identification_labeling u) " [cite: 560]");
    ("### 7. Input/Output Data",
     scalar_body "" (data_handling u) " [cite: 566]");
    ("### 8. Workflows / Use Cases",
     sequence_body "The system must support: [cite: 568]"
                   (workflow_use_cases u)) ].

Definition section_text (sec : string * string) : string :=
  fst sec ++ LF ++ snd sec.

Definition urs_document (u : WeighingStationURS) : string :=
  urs_preamble ++ join_map section_text (urs_sections u) ++ urs_closing.

(** All the texts of a record, in the order of the document. *)
Definition urs_fields (u : WeighingStationURS) : list string :=
  ([project_scope u; throughput u; weighing_specs u]
   ++ chemical_types u ++ labware_containers u
   ++ [identification_labeling u; data_handling u]
   ++ workflow_use_cases u)%list.





(** ** The two command-line loops

    [main] of both files: a banner, a greeting put to the agent, then the
    loop that reads a line, stops at the word quit, and otherwise puts the
    line to the agent.  The agent is an outside service: a call of
    [agent.print_response] is recorded as an event, and so are the calls of
    [print] and the prompt of [input].  The keyboard is the list of what the
    successive calls of [input] meet; at its end [input] raises [EOFError],
    which [main] does not catch.  [create_lab_agent] and
    [create_requirements_agent] return an agent, never [None], so the early
    [return] of [main] is not taken. *)

Inductive keyboard : Type :=
| Line (s : string)      (** a line typed, without its line feed *)
| Interrupt.             (** [KeyboardInterrupt] raised in [input] *)

Inductive event : Type :=
| Printed (s : string)   (** [print(s)] *)
| Prompted (s : string)  (** the prompt of [input(s)] *)
| Asked (s : string).    (** [agent.print_response(s)] *)

Inductive ending : Type :=
| Returned
| EOFError.

(** [user_input.lower() == "quit"] *)
Definition is_quit (user_input : string) : bool :=
  String.eqb (lower user_input) "quit".

(** The [while True] loop, inside the [try]. *)
Fixpoint chat_loop (keys : list keyboard) : list event * ending :=
  match keys with
  | [] => ([Prompted "You: "], EOFError)
  | Interrupt :: _ =>
      ([Prompted "You: "; Printed (LF ++ "Goodbye!")], Returned)
  | Line user_input :: keys' =>
      if is_quit user_input then
        ([Prompted "You: "; Printed "Agent: Goodbye!"], Returned)
      else
        let (events, e) := chat_loop keys' in
        (Prompted "You: " :: Asked user_input :: events, e)
  end.

Module InventorAgent.

Definition greeting : string :=
  "Hi, I'm your AI Lab Consultant. What automation problem can I help you solve today?".

Definition main (keys : list keyboard) : list event * ending :=
  let (events, e) := chat_loop keys in
  ([ Printed "--- 🤖 AI Lab Consultant Prototype ---";
     Printed "--- (Using LMStudio Model: llama3:8) ---";
     Printed ("Type 'quit' to exit." ++ LF);
     Asked greeting ] ++ events, e)%list.

End InventorAgent.

Module InventorAgent2.

Definition greeting : string :=
  "Hi, I'm your AI Requirements Engineer. I'm here to help you draft a User Requirements Specification (URS) for a new automated weighing station.  "
  ++ LF ++ LF
  ++ "To start, could you briefly describe the main goal of this new station?".

Definition main (keys : list keyboard) : list event * ending :=
  let (events, e) := chat_loop keys in
  ([ Printed "--- 🤖 AI Requirements Engineer Prototype ---";
     Printed "--- (This agent will interview you to create a URS) ---";
     Printed ("Type 'quit' to exit." ++ LF);
     Asked greeting ] ++ events, e)%list.

End InventorAgent2.

(** ** Vocabulary of the further statements *)

(** The events of the lines put to the agent, each after its prompt. *)
Definition exchanges (lines : list string) : list event :=
  List.concat (List.map (fun l => [Prompted "You: "; Asked l]) lines).

(** The line feed as a character. *)
Definition LFc : ascii := ascii_of_nat 10.

(** [s.split("\n")]: the lines of a text. *)
Definition prepend (a : string) (ls : list string) : list string :=
  match ls with
  | [] => [a]
  | l :: ls' => (a ++ l) :: ls'
  end.

Fixpoint split_lines (s : string) : list string :=
  match s with
  | "" => [""]
  | String c s' =>
      if Ascii.eqb c LFc then "" :: split_lines s'
      else prepend (String c "") (split_lines s')
  end.

(** The lines of the station document, as the record gives them. *)
Definition urs_lines (u : WeighingStationURS) : list string :=
  ([ "--- 📋 AI Consultant: Generated URS Document (APL01-Draft) --- ";
     "";
     "Thank you. Based on our interview, I have drafted the following User Requirements Specification (URS) for the new **Automated Weighing Station**.";
     "";
     "### 1. Project Scope";
     ("* " ++ project_scope u)%string;
     "";
     "### 2. Throughput";
     ("* " ++ throughput u ++ " [cite: 562]")%string;
     "";
     "### 3. Weighing Specifications";
     ("* **Range & Precision:** " ++ weighing_specs u ++ " [cite: 554]")%string;
     "";
     "### 4. Categories of Chemicals";
     "The system must handle: [cite: 556]" ]
   ++ List.map (append "* ") (chemical_types u)
   ++ [ "";
        "### 5. Labware";
        "The system must handle: [cite: 558]" ]
   ++ List.map (append "* ") (labware_containers u)
   ++ [ "";
        "### 6. Identification & Labeling";
        ("* " ++ identification_labeling u ++ " [cite: 560]")%string;
        "";
        "### 7. Input/Output Data";
        ("* " ++ data_handling u ++ " [cite: 566]")%string;
        "";
        "### 8. Workflows / Use Cases";
        "The system must support: [cite: 568]" ]
   ++ List.map (append "* ") (workflow_use_cases u)
   ++ [ "";
        "---";
        "This draft can now be used for the 'Solution Finding' phase." ])%list.

(** No text of the record holds a line feed. *)
Definition without_linefeed (u : WeighingStationURS) : bool :=
  List.forallb (fun f => negb (mem_char LFc f)) (urs_fields u).


(** * Examples *)

Example lower_ex : lower "Sample Handling" = "sample handling".
Proof. reflexivity. Qed.

Example strip_ex :
  strip ("  a b " ++ LF) = "a b" /\ strip "   " = "" /\ strip "x" = "x".
Proof. repeat split. Qed.

Example replace_ex :
  replace "a b  c" " " "_" = "a_b__c"
  /\ replace "aaa" "aa" "b" = "ba"
  /\ replace "ab" "" "-" = "-a-b-".
Proof. repeat split. Qed.

Example str_of_int_ex :
  str_of_int 84 = "84" /\ str_of_int 0 = "0" /\ str_of_int (-5) = "-5".
Proof. repeat split. Qed.

Example find_automation_solution_ex :
  find_automation_solution
    {| problem_domain := " Data Analysis"; samples_per_day := 12%Z;
       current_process := "spreadsheets"; budget := None |}
  = Return "I have understood your need for 'data_analysis', but I do not have a pre-built solution for that in my database.".
Proof. reflexivity. Qed.

Example occurrences_ex :
  occurrences "aa" "aaa" = 2 /\ contains "b" "abc" = true
  /\ PyStr.find "c" "abc" = Some 2 /\ PyStr.find "d" "abc" = None.
Proof. repeat split. Qed.

Example split_lines_ex :
  split_lines ("a" ++ LF ++ "b") = ["a"; "b"]
  /\ split_lines "" = [""]
  /\ split_lines ("a" ++ LF) = ["a"; ""].
Proof. repeat split. Qed.

Example main_ex :
  InventorAgent.main [Line "we weigh by hand"; Line "QUIT"; Line "more"]
  = ([ Printed "--- 🤖 AI Lab Consultant Prototype ---";
       Printed "--- (Using LMStudio Model: llama3:8) ---";
       Printed ("Type 'quit' to exit." ++ LF);
       Asked InventorAgent.greeting;
       Prompted "You: "; Asked "we weigh by hand";
       Prompted "You: "; Printed "Agent: Goodbye!" ], Returned).
Proof. reflexivity. Qed.

Example normalize_ex :
  normalize "Weighing" = "weighing"
  /\ normalize " Sample Handling Logistics " = "sample_handling_logistics"
  /\ normalize "data_analysis" = "data_analysis".
Proof. repeat split. Qed.

(** * Facts about the string operations *)

Section StringFacts.

Lemma append_assoc (a b c : string) : (a ++ b) ++ c = a ++ b ++ c.
Proof. induction a as [|x a IH]; simpl; [reflexivity | now rewrite IH]. Qed.

Lemma append_nil_r (a : string) : a ++ "" = a.
Proof. induction a as [|x a IH]; simpl; [reflexivity | now rewrite IH]. Qed.

Lemma startswith_nil (s : string) : startswith "" s = true.
Proof. reflexivity. Qed.


Lemma startswith_refl_app (p s : string) : startswith p (p ++ s) = true.
Proof.
  induction p as [|a p IH]; simpl; [reflexivity|].
  now rewrite Ascii.eqb_refl.
Qed.

Lemma map_app (f : ascii -> ascii) (a b : string) :
  map f (a ++ b) = map f a ++ map f b.
Proof. induction a as [|x a IH]; simpl; [reflexivity | now rewrite IH]. Qed.

Lemma forallb_app (f : ascii -> bool) (a b : string) :
  forallb f (a ++ b) = forallb f a && forallb f b.
Proof.
  induction a as [|x a IH]; simpl; [reflexivity|].
  now rewrite IH, andb_assoc.
Qed.

Lemma map_id_on (f : ascii -> ascii) (p : ascii -> bool) (s : string) :
  (forall c, p c = true -> f c = c) -> forallb p s = true -> map f s = s.
Proof.
  intros Hf. induction s as [|c s IH]; simpl; [reflexivity|].
  intros [Hc Hs]%andb_prop. now rewrite (Hf c Hc), (IH Hs).
Qed.

Lemma forallb_map (f : ascii -> ascii) (p : ascii -> bool) (s : string) :
  (forall c, p (f c) = true) -> forallb p (map f s) = true.
Proof.
  intros Hf. induction s as [|c s IH]; simpl; [reflexivity|].
  now rewrite Hf, IH.
Qed.

End StringFacts.

(** ** Characters *)

Ltac all_chars c :=
  destruct c as [[] [] [] [] [] [] [] []]; vm_compute; try reflexivity;
  try discriminate; auto.

Lemma lower_char_notupper (c : ascii) : notupper (lower_char c) = true.
Proof. all_chars c. Qed.

Lemma lower_char_fix (c : ascii) : notupper c = true -> lower_char c = c.
Proof. all_chars c. Qed.

Lemma underscore_notupper (c : ascii) :
  notupper c = true -> notupper (underscore c) = true.
Proof. all_chars c. Qed.

Lemma underscore_notblank (c : ascii) : notblank (underscore c) = true.
Proof. all_chars c. Qed.

Lemma underscore_fix (c : ascii) : notblank c = true -> underscore c = c.
Proof. all_chars c. Qed.

Lemma underscore_isspace (c : ascii) :
  isspace c = false -> isspace (underscore c) = false.
Proof. all_chars c. Qed.

Lemma blank_isspace (c : ascii) : Ascii.eqb c " " = true -> isspace c = true.
Proof. all_chars c. Qed.

(** ** The pieces of the domain normalizer *)

Lemma replace_blank (s : string) : replace s " " "_" = map underscore s.
Proof.
  unfold replace.
  induction s as [|c s IH]; [reflexivity|].
  cbn [replace_from startswith map String.length Nat.sub].
  unfold underscore. rewrite (eqb_sym " " c).
  destruct (Ascii.eqb c " "); cbn [andb]; rewrite IH.
  - destruct s; reflexivity.
  - reflexivity.
Qed.

Lemma lstrip_spec (s : string) :
  exists l, s = l ++ lstrip s
            /\ forallb isspace l = true
            /\ starts_space (lstrip s) = false.
Proof.
  induction s as [|c s (l & E & Hl & Hs)]; [now exists ""|].
  simpl. destruct (isspace c) eqn:Hc.
  - exists (String c l). simpl. rewrite Hc, Hl. now rewrite <- E.
  - exists "". now simpl.
Qed.

Lemma rstrip_spec (s : string) :
  exists r, s = rstrip s ++ r
            /\ forallb isspace r = true
            /\ ends_space (rstrip s) = false.
Proof.
  induction s as [|c s (r & E & Hr & Hs)]; [now exists ""|].
  simpl. destruct (rstrip s) as [|d k] eqn:Ek.
  - simpl in E. subst r. destruct (isspace c) eqn:Hc.
    + exists (String c s). simpl. now rewrite Hc, Hr.
    + exists s. now simpl.
  - exists r. split; [|split; [exact Hr|exact Hs]].
    change (String c s = String c (String d k ++ r)). now f_equal.
Qed.

Lemma rstrip_starts (s : string) :
  starts_space s = false -> starts_space (rstrip s) = false.
Proof.
  destruct s as [|c s]; [reflexivity|]. simpl. intros Hc.
  destruct (rstrip s); [now rewrite Hc|exact Hc].
Qed.

Lemma strip_spec (s : string) : stripped_of s (strip s).
Proof.
  unfold strip.
  destruct (lstrip_spec s) as (l & El & Hl & Hs).
  destruct (rstrip_spec (lstrip s)) as (r & Er & Hr & He).
  exists l, r. repeat split; auto.
  - now rewrite <- Er.
  - now apply rstrip_starts.
Qed.

Lemma lstrip_fix (t : string) : starts_space t = false -> lstrip t = t.
Proof. destruct t as [|c t]; simpl; [reflexivity|]. now intros ->. Qed.

Lemma rstrip_cons (c : ascii) (s : string) :
  rstrip (String c s)
  = match rstrip s with
    | "" => if isspace c then "" else String c ""
    | String d k => String c (String d k)
    end.
Proof. reflexivity. Qed.

Lemma rstrip_fix (t : string) : ends_space t = false -> rstrip t = t.
Proof.
  induction t as [|c t IH]; [reflexivity|].
  destruct t as [|d t].
  - simpl. now intros ->.
  - intros H. change (ends_space (String d t) = false) in H.
    now rewrite rstrip_cons, (IH H).
Qed.

Lemma strip_fix (t : string) :
  starts_space t = false -> ends_space t = false -> strip t = t.
Proof. intros Hs He. unfold strip. now rewrite (lstrip_fix _ Hs), rstrip_fix. Qed.

Lemma lstrip_spaces (l s : string) :
  forallb isspace l = true -> lstrip (l ++ s) = lstrip s.
Proof.
  induction l as [|c l IH]; [reflexivity|].
  simpl. intros [Hc Hl]%andb_prop. now rewrite Hc, IH.
Qed.

Lemma rstrip_spaces (r : string) : forallb isspace r = true -> rstrip r = "".
Proof.
  induction r as [|c r IH]; [reflexivity|].
  simpl. intros [Hc Hr]%andb_prop. now rewrite (IH Hr), Hc.
Qed.

Lemma rstrip_app_spaces (t r : string) :
  ends_space t = false -> forallb isspace r = true -> rstrip (t ++ r) = t.
Proof.
  intros He Hr. induction t as [|c t IH]; [now apply rstrip_spaces|].
  change (String c t ++ r) with (String c (t ++ r)). rewrite rstrip_cons.
  destruct t as [|d t].
  - simpl in *. now rewrite (rstrip_spaces r Hr), He.
  - change (ends_space (String d t) = false) in He. now rewrite (IH He).
Qed.

Lemma lstrip_all_spaces (r : string) :
  forallb isspace r = true -> lstrip r = "".
Proof.
  induction r as [|c r IH]; [reflexivity|].
  simpl. intros [Hc Hr]%andb_prop. now rewrite Hc, IH.
Qed.

(** There is one string only that [stripped_of] relates to [s]. *)
Lemma stripped_of_strip (s t : string) : stripped_of s t -> t = strip s.
Proof.
  intros (l & r & -> & Hl & Hr & Hs & He).
  unfold strip. rewrite (lstrip_spaces _ _ Hl).
  destruct t as [|c t].
  - simpl. now rewrite (lstrip_all_spaces r Hr).
  - change (String c t ++ r) with (String c (t ++ r)).
    rewrite lstrip_fix by exact Hs.
    change (String c (t ++ r)) with (String c t ++ r).
    now rewrite rstrip_app_spaces.
Qed.

(** ** The domain normalizer *)

Lemma normalize_eq (raw : string) :
  normalize raw = map underscore (strip (map lower_char raw)).
Proof. unfold normalize. now rewrite replace_blank. Qed.

Lemma forallb_strip (p : ascii -> bool) (s : string) :
  forallb p s = true -> forallb p (strip s) = true.
Proof.
  destruct (strip_spec s) as (l & r & E & _). intros H.
  rewrite E, !forallb_app in H.
  now apply andb_prop in H as [_ [H _]%andb_prop].
Qed.

Lemma starts_space_underscore (t : string) :
  starts_space t = false -> starts_space (map underscore t) = false.
Proof. destruct t as [|c t]; [reflexivity|]. apply underscore_isspace. Qed.

Lemma ends_space_underscore (t : string) :
  ends_space t = false -> ends_space (map underscore t) = false.
Proof.
  induction t as [|c t IH]; [reflexivity|].
  destruct t as [|d t]; [apply underscore_isspace|].
  exact IH.
Qed.

Lemma normalize_notupper (raw : string) :
  forallb notupper (normalize raw) = true.
Proof.
  rewrite normalize_eq.
  assert (H : forallb notupper (strip (map lower_char raw)) = true)
    by (apply forallb_strip, forallb_map, lower_char_notupper).
  revert H. generalize (strip (map lower_char raw)) as t.
  induction t as [|c t IH]; [reflexivity|].
  simpl. intros [Hc Ht]%andb_prop.
  now rewrite (underscore_notupper c Hc), (IH Ht).
Qed.

Lemma normalize_notblank (raw : string) :
  forallb notblank (normalize raw) = true.
Proof. rewrite normalize_eq. apply forallb_map, underscore_notblank. Qed.

Lemma normalize_edges (raw : string) :
  starts_space (normalize raw) = false /\ ends_space (normalize raw) = false.
Proof.
  rewrite normalize_eq.
  destruct (strip_spec (map lower_char raw)) as (l & r & _ & _ & _ & Hs & He).
  split; [now apply starts_space_underscore | now apply ends_space_underscore].
Qed.

(** A key is left as it is by each of the three steps. *)
Lemma normalize_fix (k : string) :
  forallb notupper k = true ->
  forallb notblank k = true ->
  starts_space k = false ->
  ends_space k = false ->
  normalize k = k.
Proof.
  intros Hu Hb Hs He. rewrite normalize_eq.
  rewrite (map_id_on lower_char notupper k lower_char_fix Hu).
  rewrite (strip_fix k Hs He).
  exact (map_id_on underscore notblank k underscore_fix Hb).
Qed.

Lemma normalize_twice (s : string) :
  normalize (normalize s) = normalize s.
Proof.
  destruct (normalize_edges s) as [Hs He].
  apply normalize_fix; auto using normalize_notupper, normalize_notblank.
Qed.


(** C8.  The domain normalizer is idempotent: for every non-empty string
    [s], normalizing the key of [s] gives that key again. *)
Theorem normalize_idempotent (s : string) :
  s <> "" -> normalize (normalize s) = normalize s.
Proof. intros _. apply normalize_twice. Qed.

Lemma normalize_idempotent_witness :
  " Sample Handling Logistics " <> ""
  /\ normalize (normalize " Sample Handling Logistics ")
     = normalize " Sample Handling Logistics ".
Proof.
  split; [discriminate|].
  apply (normalize_idempotent " Sample Handling Logistics "). discriminate.
Defined.

(** ** Occurrences of a text in a string *)







(** ** Construction of the records *)

(** C1, as the code has it.  [LabRequirements] accepts every integer for
    [samples_per_day], negative ones and zero included: given the two texts
    and an integer, the call returns the record that holds exactly these
    values ([budget] is [None] when it is not passed); and a call without
    [samples_per_day] raises the validation error that names the field. *)
Theorem LabRequirements_init_any_int
    (d p : string) (n : Z) (b : option (option string)) :
  LabRequirements_init
    {| kw_problem_domain := Some d; kw_samples_per_day := Some n;
       kw_current_process := Some p; kw_budget := b |}
  = Return {| problem_domain := d; samples_per_day := n;
              current_process := p;
              budget := match b with Some v => v | None => None end |}
  /\ LabRequirements_init
       {| kw_problem_domain := Some d; kw_samples_per_day := None;
          kw_current_process := Some p; kw_budget := b |}
     = Raise (ValidationError ["samples_per_day"]).
Proof. split; reflexivity. Qed.

(** C1 fails at [samples_per_day = -5]: the call returns a record, and
    raises no validation error. *)
Lemma LabRequirements_init_minus_five :
  LabRequirements_init
    {| kw_problem_domain := Some "weighing"; kw_samples_per_day := Some (-5)%Z;
       kw_current_process := Some "manual weighing"; kw_budget := None |}
  = Return {| problem_domain := "weighing"; samples_per_day := (-5)%Z;
              current_process := "manual weighing"; budget := None |}
  /\ forall missing,
       LabRequirements_init
         {| kw_problem_domain := Some "weighing";
            kw_samples_per_day := Some (-5)%Z;
            kw_current_process := Some "manual weighing"; kw_budget := None |}
       <> Raise (ValidationError missing).
Proof. split; [reflexivity | discriminate]. Qed.

(** C2, as the code has it.  Construction is all or nothing on the presence
    of the required fields, for both records: either some required field is
    not given, and the call raises the validation error that names the
    fields not given and returns no record; or all are given, and the call
    returns the record that holds exactly the given values, whatever they
    are (an empty text or an empty sequence is accepted as it is).  Only
    [budget], which is optional, has a default. *)
Theorem init_all_or_nothing
    (kw : LabRequirements_kwargs) (kw' : WeighingStationURS_kwargs) :
  ((LabRequirements_missing kw <> []
    /\ LabRequirements_init kw
       = Raise (ValidationError (LabRequirements_missing kw)))
   \/ (LabRequirements_missing kw = []
       /\ exists d n p,
            kw_problem_domain kw = Some d
            /\ kw_samples_per_day kw = Some n
            /\ kw_current_process kw = Some p
            /\ LabRequirements_init kw
               = Return {| problem_domain := d; samples_per_day := n;
                           current_process := p;
                           budget := match kw_budget kw with
                                     | Some v => v
                                     | None => None
                                     end |}))
  /\
  ((WeighingStationURS_missing kw' <> []
    /\ WeighingStationURS_init kw'
       = Raise (ValidationError (WeighingStationURS_missing kw')))
   \/ (WeighingStationURS_missing kw' = []
       /\ exists a b c d e f g h,
            kw_project_scope kw' = Some a
            /\ kw_throughput kw' = Some b
            /\ kw_weighing_specs kw' = Some c
            /\ kw_chemical_types kw' = Some d
            /\ kw_labware_containers kw' = Some e
            /\ kw_identification_labeling kw' = Some f
            /\ kw_data_handling kw' = Some g
            /\ kw_workflow_use_cases kw' = Some h
            /\ WeighingStationURS_init kw'
               = Return {| project_scope := a; throughput := b;
                           weighing_specs := c; chemical_types := d;
                           labware_containers := e;
                           identification_labeling := f;
                           data_handling := g;
                           workflow_use_cases := h |})).
Proof.
  split.
  - destruct kw as [[d|] [n|] [p|] b];
      try (left; split; [discriminate | reflexivity]).
    right. split; [reflexivity|]. now exists d, n, p.
  - destruct kw' as [[a|] [b|] [c|] [d|] [e|] [f|] [g|] [h|]];
      try (left; split; [discriminate | reflexivity]).
    right. split; [reflexivity|]. now exists a, b, c, d, e, f, g, h.
Qed.

(** C2 fails at an empty text and at an empty sequence: both calls return a
    record. *)
Lemma init_accepts_empty :
  LabRequirements_init
    {| kw_problem_domain := Some ""; kw_samples_per_day := Some 84%Z;
       kw_current_process := Some "manual weighing"; kw_budget := None |}
  = Return {| problem_domain := ""; samples_per_day := 84%Z;
              current_process := "manual weighing"; budget := None |}
  /\ WeighingStationURS_init
       {| kw_project_scope := Some "scope"; kw_throughput := Some "84 per day";
          kw_weighing_specs := Some "0.2mg - 100g";
          kw_chemical_types := Some [];
          kw_labware_containers := Some ["vials"];
          kw_identification_labeling := Some "barcodes";
          kw_data_handling := Some "csv";
          kw_workflow_use_cases := Some ["one-to-many"] |}
     = Return {| project_scope := "scope"; throughput := "84 per day";
                 weighing_specs := "0.2mg - 100g"; chemical_types := [];
                 labware_containers := ["vials"];
                 identification_labeling := "barcodes";
                 data_handling := "csv";
                 workflow_use_cases := ["one-to-many"] |}.
Proof. split; reflexivity. Qed.

(** ** The answer when the knowledge base has no entry *)



Section NoMatch.

Let before : string := "I have understood your need for '".
Let after : string :=
  "', but I do not have a pre-built solution for that in my database.".




End NoMatch.




(** ** The report of matched solutions *)


(** A loop [for x in l: acc += f(x)] appends the texts in the order of
    [l]. *)
Lemma fold_left_join {A : Type} (f : A -> string) (g : string -> A -> string)
    (l : list A) (acc : string) :
  (forall a x, g a x = a ++ f x) ->
  fold_left g l acc = acc ++ join_map f l.
Proof.
  intros Hg. revert acc.
  induction l as [|x l IH]; intros acc; simpl.
  - now rewrite append_nil_r.
  - now rewrite IH, Hg, append_assoc.
Qed.

Lemma add_solution_block (summary : string) (sol : Solution) :
  add_solution summary sol = summary ++ solution_block sol.
Proof.
  unfold add_solution, solution_block. cbv zeta.
  rewrite (fold_left_join bullet add_requirement) by reflexivity.
  now rewrite !append_assoc.
Qed.


Lemma find_automation_solution_matched (r : LabRequirements)
    (sols : list Solution) :
  Dict.get SOLUTION_KNOWLEDGE_BASE (normalize (problem_domain r)) = Some sols ->
  find_automation_solution r
  = Return (report_header (normalize (problem_domain r)) (samples_per_day r)
                          (current_process r)
            ++ join_map solution_block sols
            ++ report_closing).
Proof.
  intros E. unfold find_automation_solution, Dict.mem, Dict.getitem.
  cbv zeta. rewrite E. cbn [negb bind]. f_equal.
  rewrite (fold_left_join solution_block add_solution)
    by apply add_solution_block.
  unfold report_header, report_closing. now rewrite !append_assoc.
Qed.





(** C4.  The record with the label ["Weighing"], 84 samples a day and the
    process ["manual weighing"]: the key is ["weighing"]; the entry has
    exactly two solutions, with the two names below, in this order; the
    report holds the block of the first and then the block of the second;
    and in the report the first name, the first budget range, the second
    name and the second budget range all occur, first in this order. *)
Theorem weighing_scenario :
  let r := {| problem_domain := "Weighing"; samples_per_day := 84%Z;
              current_process := "manual weighing"; budget := None |} in
  normalize (problem_domain r) = "weighing"
  /\ exists (d1 d2 : Solution) (out : string),
       Dict.getitem SOLUTION_KNOWLEDGE_BASE (normalize (problem_domain r))
       = Return [d1; d2]
       /\ solution_name d1 = "Automated Weighing Station (URS APL01)"
       /\ solution_name d2
          = "Manual Computer-Assisted Weighing Station (URS APL02)"
       /\ avg_budget d1 = "$70,000 - $200,000"
       /\ avg_budget d2 = "$10,000 - $40,000"
       /\ find_automation_solution r = Return out
       /\ (exists x z : string,
             out = x ++ solution_block d1 ++ solution_block d2 ++ z)
       /\ exists i1 j1 i2 j2 : nat,
            PyStr.find (solution_name d1) out = Some i1
            /\ PyStr.find (avg_budget d1) out = Some j1
            /\ PyStr.find (solution_name d2) out = Some i2
            /\ PyStr.find (avg_budget d2) out = Some j2
            /\ i1 < j1 /\ j1 < i2 /\ i2 < j2.
Proof.
  intros r. split; [reflexivity|].
  do 3 eexists.
  split; [lazy; reflexivity|].
  do 4 (split; [reflexivity|]).
  split; [exact (find_automation_solution_matched r _ eq_refl)|].
  split.
  - exists (report_header "weighing" 84 "manual weighing"), report_closing.
    reflexivity.
  - do 4 eexists.
    do 4 (split; [vm_compute; reflexivity|]).
    repeat split; apply Nat.ltb_lt; vm_compute; reflexivity.
Qed.

(** ** Errors after construction, and the optional budget *)


(** C10.  The budget has no part in the answer: two records with the same
    label, the same throughput and the same current process get the same
    result of the search, whatever their budgets, and so do two calls of
    the tool that differ in the budget only (given or not). *)
Theorem budget_never_influences (r1 r2 : LabRequirements) :
  problem_domain r1 = problem_domain r2 ->
  samples_per_day r1 = samples_per_day r2 ->
  current_process r1 = current_process r2 ->
  find_automation_solution r1 = find_automation_solution r2
  /\ get_lab_requirements (problem_domain r1) (samples_per_day r1)
                          (current_process r1) (budget r1)
     = get_lab_requirements (problem_domain r2) (samples_per_day r2)
                            (current_process r2) (budget r2).
Proof.
  intros Hd Hn Hp.
  unfold get_lab_requirements, LabRequirements_init, find_automation_solution.
  cbn [kw_problem_domain kw_samples_per_day kw_current_process kw_budget
       bind problem_domain samples_per_day current_process].
  now rewrite Hd, Hn, Hp.
Qed.

Lemma budget_never_influences_witness :
  let r1 := {| problem_domain := "Weighing"; samples_per_day := 84%Z;
               current_process := "manual weighing"; budget := None |} in
  let r2 := {| problem_domain := "Weighing"; samples_per_day := 84%Z;
               current_process := "manual weighing";
               budget := Some "under 100k" |} in
  budget r1 <> budget r2
  /\ find_automation_solution r1 = find_automation_solution r2
  /\ get_lab_requirements "Weighing" 84 "manual weighing" None
     = get_lab_requirements "Weighing" 84 "manual weighing"
                            (Some "under 100k").
Proof.
  intros r1 r2. split; [discriminate|].
  exact (budget_never_influences r1 r2 eq_refl eq_refl eq_refl).
Defined.

(** ** The station document *)

Lemma build_report_document (u : WeighingStationURS) :
  build_report u = urs_document u.
Proof.
  unfold build_report, urs_document, urs_preamble, urs_closing, urs_sections.
  cbv zeta.
  rewrite !(fold_left_join bullet add_item) by reflexivity.
  cbn [join_map]. unfold section_text, scalar_body, sequence_body, bullet.
  cbn [fst snd]. rewrite !append_assoc. reflexivity.
Qed.










Lemma occurrences_head (p y : string) : 1 <= occurrences p (p ++ y).
Proof.
  pose proof (startswith_refl_app p y) as H.
  destruct (p ++ y); cbn [occurrences]; rewrite H; lia.
Qed.

Lemma occurrences_app_le (p x y : string) :
  occurrences p y <= occurrences p (x ++ y).
Proof.
  induction x as [|c x IH]; [apply Nat.le_refl|].
  change (String c x ++ y) with (String c (x ++ y)). cbn [occurrences]. lia.
Qed.

Lemma contains_true (p s : string) :
  1 <= occurrences p s -> contains p s = true.
Proof.
  unfold contains. intros H. apply negb_true_iff, Nat.eqb_neq. lia.
Qed.

Lemma contains_head (f y : string) : contains f (f ++ y) = true.
Proof. apply contains_true, occurrences_head. Qed.

Lemma contains_skip (f x y : string) :
  contains f y = true -> contains f (x ++ y) = true.
Proof.
  unfold contains. intros H%negb_true_iff%Nat.eqb_neq.
  apply negb_true_iff, Nat.eqb_neq.
  pose proof (occurrences_app_le f x y). lia.
Qed.




Ltac unfold_document :=
  unfold urs_document, urs_preamble, urs_closing, urs_sections;
  cbn [join_map project_scope throughput weighing_specs chemical_types
       labware_containers identification_labeling data_handling
       workflow_use_cases];
  unfold section_text, scalar_body, sequence_body, bullet; cbn [fst snd];
  rewrite !append_assoc.








(** * Further properties of the code *)

(** ** The domain key (inventor_agent.py, line 129) *)

Lemma isspace_lower_char (c : ascii) : isspace (lower_char c) = isspace c.
Proof. all_chars c. Qed.

Lemma forallb_isspace_lower (s : string) :
  forallb isspace (map lower_char s) = forallb isspace s.
Proof.
  induction s as [|c s IH]; [reflexivity|].
  simpl. now rewrite isspace_lower_char, IH.
Qed.

Lemma strip_padding (l s r : string) :
  forallb isspace l = true ->
  forallb isspace r = true ->
  strip (l ++ s ++ r) = strip s.
Proof.
  intros Hl Hr. symmetry. apply stripped_of_strip.
  destruct (strip_spec s) as (l0 & r0 & E & Hl0 & Hr0 & Hs & He).
  exists (l ++ l0), (r0 ++ r). repeat split; auto.
  - rewrite E at 1. now rewrite !append_assoc.
  - now rewrite forallb_app, Hl, Hl0.
  - now rewrite forallb_app, Hr, Hr0.
Qed.


(** The key ignores the case of the letters and the white space around the
    label: two labels with the same lowered text, one of them between two
    runs of white space, have the same key. *)
Theorem normalize_ignores_case_and_padding (l s r t : string) :
  forallb isspace l = true ->
  forallb isspace r = true ->
  lower s = lower t ->
  normalize (l ++ s ++ r) = normalize t.
Proof.
  intros Hl Hr E. rewrite !normalize_eq. unfold lower in E.
  rewrite !map_app, E, strip_padding; [reflexivity| |];
    now rewrite forallb_isspace_lower.
Qed.

Lemma normalize_ignores_case_and_padding_witness :
  let tab := String (ascii_of_nat 9) "" in
  forallb isspace ("  " ++ tab) = true
  /\ forallb isspace (" " ++ LF) = true
  /\ lower "Sample HANDLING Logistics" = lower "sample handling logistics"
  /\ normalize (("  " ++ tab) ++ "Sample HANDLING Logistics" ++ " " ++ LF)
     = normalize "sample handling logistics".
Proof.
  intros tab. do 3 (split; [reflexivity|]).
  apply (normalize_ignores_case_and_padding
           ("  " ++ tab) "Sample HANDLING Logistics" (" " ++ LF)
           "sample handling logistics"); reflexivity.
Defined.





(** ** The search (inventor_agent.py, lines 123-154) *)







Lemma contains_mid (f a b : string) : contains f (a ++ f ++ b) = true.
Proof. apply contains_skip, contains_head. Qed.




(** ** The lines of the station document (inventor_agent2.py, lines 73-110) *)

Lemma split_lines_cons (s : string) :
  exists l ls, split_lines s = l :: ls.
Proof.
  induction s as [|c s (l & ls & E)]; [now exists "", []|].
  cbn [split_lines]. destruct (Ascii.eqb c LFc); [now eexists; eexists|].
  rewrite E. now eexists; eexists.
Qed.

Lemma split_lines_LF (y : string) :
  split_lines (LF ++ y) = "" :: split_lines y.
Proof. reflexivity. Qed.

Lemma split_lines_nolf (a y : string) :
  mem_char LFc a = false ->
  split_lines (a ++ y) = prepend a (split_lines y).
Proof.
  destruct (split_lines_cons y) as (l & ls & E). rewrite E.
  induction a as [|c a IH]; intros H.
  - cbn [append prepend]. exact E.
  - cbn [mem_char] in H. apply orb_false_elim in H as [Hc Ha].
    change (String c a ++ y) with (String c (a ++ y)).
    cbn [split_lines]. rewrite (eqb_sym c LFc), Hc, (IH Ha). reflexivity.
Qed.

Lemma split_lines_items (l : list string) (y : string) :
  Forall (fun f => mem_char LFc f = false) l ->
  split_lines (join_map bullet l ++ y)
  = (List.map (append "* ") l ++ split_lines y)%list.
Proof.
  induction 1 as [|x l Hx Hl IH]; [reflexivity|].
  cbn [join_map List.map]. unfold bullet at 1. rewrite !append_assoc.
  rewrite (split_lines_nolf "* ") by reflexivity.
  rewrite (split_lines_nolf x) by exact Hx.
  rewrite split_lines_LF, IH. cbn [prepend]. now rewrite append_nil_r.
Qed.

Lemma without_linefeed_Forall (u : WeighingStationURS) :
  without_linefeed u = true ->
  Forall (fun f => mem_char LFc f = false) (urs_fields u).
Proof.
  unfold without_linefeed. intros H. apply Forall_forall. intros f Hf.
  apply negb_true_iff. revert f Hf. now apply forallb_forall.
Qed.

Ltac split_step :=
  first
    [ rewrite split_lines_LF
    | rewrite split_lines_items by assumption
    | rewrite split_lines_nolf by (reflexivity || assumption) ].

Lemma report_lines (u : WeighingStationURS) :
  without_linefeed u = true ->
  split_lines (build_report u) = urs_lines u.
Proof.
  intros H%without_linefeed_Forall. rewrite build_report_document.
  destruct u as [a b c d e f g h]. unfold urs_fields, urs_lines in *.
  cbn [project_scope throughput weighing_specs chemical_types
       labware_containers identification_labeling data_handling
       workflow_use_cases List.app] in *.
  apply Forall_cons_iff in H as [Ha H].
  apply Forall_cons_iff in H as [Hb H].
  apply Forall_cons_iff in H as [Hc H].
  apply Forall_app in H as [Hd H].
  apply Forall_app in H as [He H].
  apply Forall_cons_iff in H as [Hf H].
  apply Forall_cons_iff in H as [Hg Hh].
  unfold_document.
  repeat split_step.
  cbn [prepend List.app]. rewrite !append_nil_r. reflexivity.
Qed.

(** The report, line by line.  For every record whose texts hold no line
    feed, the lines of the report are those of [urs_lines]: under each
    heading of a text, one bullet line with the text; under each heading of
    a sequence, the line of introduction and then one bullet line for each
    element, in the order of the sequence, and none for an empty sequence;
    an empty line after each section. *)
Theorem build_report_lines (u : WeighingStationURS) :
  without_linefeed u = true ->
  split_lines (build_report u) = urs_lines u.
Proof. apply report_lines. Qed.

Lemma build_report_lines_witness :
  let u := {| project_scope := "Automate weighing of solids and liquids";
              throughput := "84 compounds per day";
              weighing_specs := "0.2mg - 100g";
              chemical_types := ["Powder"; "Flakes"];
              labware_containers := [];
              identification_labeling := "Read and print barcodes";
              data_handling := "Import worklists from CSV";
              workflow_use_cases := ["one-to-many"; "many-to-one"] |} in
  without_linefeed u = true
  /\ split_lines (build_report u) = urs_lines u.
Proof.
  intros u. split; [reflexivity|].
  apply (build_report_lines u). reflexivity.
Defined.

Lemma length_append (a b : string) :
  String.length (a ++ b) = String.length a + String.length b.
Proof. induction a as [|c a IH]; simpl; [reflexivity | now rewrite IH]. Qed.

Lemma append_inj_r (a a' c : string) : a ++ c = a' ++ c -> a = a'.
Proof.
  revert a'. induction a as [|x a IH]; intros [|x' a'] H.
  - reflexivity.
  - apply (f_equal String.length) in H. rewrite !length_append in H.
    simpl in H. lia.
  - apply (f_equal String.length) in H. rewrite !length_append in H.
    simpl in H. lia.
  - simpl in H. injection H as -> H. now rewrite (IH a' H).
Qed.

Lemma bullets_split (l l' : list string) (X X' : list string) :
  (List.map (append "* ") l ++ "" :: X
   = List.map (append "* ") l' ++ "" :: X')%list ->
  l = l' /\ X = X'.
Proof.
  revert l'. induction l as [|x l IH]; intros [|x' l'] H;
    cbn [List.map List.app] in H.
  - now injection H.
  - discriminate H.
  - discriminate H.
  - injection H as -> H. now destruct (IH l' H) as [-> ->].
Qed.

(** The report keeps all of the record: two records whose texts hold no
    line feed and that have the same report are the same record. *)
Theorem build_report_injective (u1 u2 : WeighingStationURS) :
  without_linefeed u1 = true ->
  without_linefeed u2 = true ->
  build_report u1 = build_report u2 ->
  u1 = u2.
Proof.
  intros H1 H2 E. apply (f_equal split_lines) in E.
  rewrite (report_lines u1 H1), (report_lines u2 H2) in E.
  destruct u1 as [a b c d e f g h], u2 as [a' b' c' d' e' f' g' h'].
  unfold urs_lines in E.
  cbn [project_scope throughput weighing_specs chemical_types
       labware_containers identification_labeling data_handling
       workflow_use_cases List.app] in E.
  injection E as -> Eb Ec E.
  apply bullets_split in E as [-> E].
  injection E as E.
  apply bullets_split in E as [-> E].
  injection E as Ef Eg E.
  change (ListDef.map (fun s2 : string => String "*" (String " " s2)))
    with (List.map (append "* ")) in E.
  apply bullets_split in E as [-> _].
  apply append_inj_r in Eb as ->. apply append_inj_r in Ec as ->.
  apply append_inj_r in Ef as ->. apply append_inj_r in Eg as ->.
  reflexivity.
Qed.

Lemma build_report_injective_witness :
  let u := {| project_scope := "Automate weighing of solids and liquids";
              throughput := "84 compounds per day";
              weighing_specs := "0.2mg - 100g";
              chemical_types := ["Powder"; "Flakes"];
              labware_containers := ["8ml reaction vials"];
              identification_labeling := "Read and print barcodes";
              data_handling := "Import worklists from CSV";
              workflow_use_cases := [] |} in
  without_linefeed u = true /\ build_report u = build_report u /\ u = u.
Proof.
  intros u. split; [reflexivity|]. split; [reflexivity|].
  apply (build_report_injective u u); reflexivity.
Defined.

(** With a line feed in a text the report no longer tells the record: a
    sequence of the one element of two lines [Powder] and [* Flakes], and
    the sequence of the two elements [Powder] and [Flakes], give the same
    report. *)
Theorem build_report_not_injective :
  exists u1 u2 : WeighingStationURS,
    chemical_types u1 = ["Powder" ++ LF ++ "* Flakes"]
    /\ chemical_types u2 = ["Powder"; "Flakes"]
    /\ u1 <> u2
    /\ build_report u1 = build_report u2.
Proof.
  exists {| project_scope := "scope"; throughput := "84 per day";
            weighing_specs := "0.2mg - 100g";
            chemical_types := ["Powder" ++ LF ++ "* Flakes"];
            labware_containers := ["vials"];
            identification_labeling := "barcodes"; data_handling := "csv";
            workflow_use_cases := ["one-to-many"] |},
         {| project_scope := "scope"; throughput := "84 per day";
            weighing_specs := "0.2mg - 100g";
            chemical_types := ["Powder"; "Flakes"];
            labware_containers := ["vials"];
            identification_labeling := "barcodes"; data_handling := "csv";
            workflow_use_cases := ["one-to-many"] |}.
  split; [reflexivity|]. split; [reflexivity|].
  split; [discriminate | vm_compute; reflexivity].
Qed.

(** ** The command-line loops (both files, [main]) *)

Lemma chat_loop_lines (before : list string) (keys : list keyboard) :
  List.forallb (fun l => negb (is_quit l)) before = true ->
  chat_loop (List.map Line before ++ keys)
  = (exchanges before ++ fst (chat_loop keys), snd (chat_loop keys))%list.
Proof.
  induction before as [|l before IH]; intros H.
  - cbn [List.map List.app exchanges List.concat]. now destruct (chat_loop keys).
  - cbn [List.forallb] in H. apply andb_prop in H as [Hl H].
    apply negb_true_iff in Hl.
    cbn [List.map List.app chat_loop]. rewrite Hl, (IH H). reflexivity.
Qed.

(** Typing quit, in any case of its letters, ends the session: both loops
    put to the agent the greeting and then each line typed before the first
    line whose lowered text is [quit], in their order; at that line they
    print the farewell and return, and they read nothing of what follows.
    (The line is compared as typed, but for the case: a line with a blank
    around the word is put to the agent.) *)
Theorem main_stops_at_quit
    (before : list string) (word : string) (rest : list keyboard) :
  List.forallb (fun l => negb (is_quit l)) before = true ->
  lower word = "quit" ->
  InventorAgent.main (List.map Line before ++ Line word :: rest)
  = ([ Printed "--- 🤖 AI Lab Consultant Prototype ---";
       Printed "--- (Using LMStudio Model: llama3:8) ---";
       Printed ("Type 'quit' to exit." ++ LF);
       Asked InventorAgent.greeting ]
     ++ exchanges before
     ++ [ Prompted "You: "; Printed "Agent: Goodbye!" ], Returned)%list
  /\ InventorAgent2.main (List.map Line before ++ Line word :: rest)
     = ([ Printed "--- 🤖 AI Requirements Engineer Prototype ---";
          Printed "--- (This agent will interview you to create a URS) ---";
          Printed ("Type 'quit' to exit." ++ LF);
          Asked InventorAgent2.greeting ]
        ++ exchanges before
        ++ [ Prompted "You: "; Printed "Agent: Goodbye!" ], Returned)%list.
Proof.
  intros H Hw. unfold InventorAgent.main, InventorAgent2.main.
  rewrite (chat_loop_lines before _ H).
  cbn [chat_loop]. unfold is_quit. rewrite Hw. cbn [String.eqb fst snd].
  split; reflexivity.
Qed.

Lemma main_stops_at_quit_witness :
  let before := ["we weigh by hand"; " quit"] in
  List.forallb (fun l => negb (is_quit l)) before = true
  /\ lower "QuIt" = "quit"
  /\ InventorAgent.main
       (List.map Line before ++ Line "QuIt" :: [Line "never read"])
     = ([ Printed "--- 🤖 AI Lab Consultant Prototype ---";
          Printed "--- (Using LMStudio Model: llama3:8) ---";
          Printed ("Type 'quit' to exit." ++ LF);
          Asked InventorAgent.greeting;
          Prompted "You: "; Asked "we weigh by hand";
          Prompted "You: "; Asked " quit";
          Prompted "You: "; Printed "Agent: Goodbye!" ], Returned).
Proof.
  intros before. split; [reflexivity|]. split; [reflexivity|].
  exact (proj1 (main_stops_at_quit before "QuIt" [Line "never read"]
                  eq_refl eq_refl)).
Defined.



(** ** One heading for each solution (inventor_agent.py, lines 139-154) *)







